(** * PersonaGPT: the conversation relay

    A shallow embedding of the three Python modules of the backend

    - [app/api/routes/chat.py]   ([conversation_history], [send_message],
                                  [reset_conversation]),
    - [app/services/chatbot.py]  ([get_chat_response]),
    - [app/main.py]              ([root], [health]),

    and the properties of the shared transcript that follow from them.

    The handlers are [async def] functions without a single [await]: each
    one runs to completion once started, so a handler is a function from
    the state before the request to an outcome and the state after it. *)

From Stdlib Require Import String List ZArith.
From Stdlib Require Import Lia.
Import ListNotations.

Local Open Scope string_scope.
Local Open Scope list_scope.

(** ** Values *)

(** The objects of the [openai] client library that [get_chat_response]
    reads: a completion carries a list of choices, a choice a message, a
    message its content, which the library types as [Optional[str]]. *)
Module openai.

Record ChatCompletionMessage : Type :=
  { content : option string }.

Record Choice : Type :=
  { message : ChatCompletionMessage }.

Record ChatCompletion : Type :=
  { choices : list Choice }.

End openai.

(** What the [try] block of [send_message] can raise.  Only [str(e)] is
    ever observed, so an exception is its class and its text. *)
Inductive Exception : Type :=
| APIError (description : string)
| IndexError (description : string)
| ValidationError (description : string).

Definition str (e : Exception) : string :=
  match e with
  | APIError description => description
  | IndexError description => description
  | ValidationError description => description
  end.

(** Modelled from the spec: [app/schemas/chat.py], which declares
    [ChatRequest] and [ChatResponse], is not among the sources.  The HTTP
    surface gives the request body as [{ "message": string }] and the
    response body as [{ "reply": string }].  Building a [ChatResponse] from
    Python's [None] is refused with a validation error, whose text (it
    depends on the validation library) is a parameter. *)
Module schemas.

Record ChatRequest : Type :=
  { message : string }.

Record ChatResponse : Type :=
  { reply : string }.

Definition ChatResponse_init (validation_text : string)
    (reply : option string) : Exception + ChatResponse :=
  match reply with
  | Some text => inr {| reply := text |}
  | None => inl (ValidationError validation_text)
  end.

End schemas.

(** [fastapi.HTTPException(status_code=..., detail=...)]. *)
Record HTTPException : Type :=
  { status_code : Z;
    detail : string }.

(** [fastapi.responses.FileResponse(path)]. *)
Record FileResponse : Type :=
  { path : string }.

(** An entry of the transcript: the dict [{"role": ..., "content": ...}].
    The content of an assistant entry is whatever [get_chat_response]
    returned, which may be [None]. *)
Record Message : Type :=
  { role : string;
    content : option string }.

(** A JSON object with string values, as [health] and
    [reset_conversation] return it. *)
Definition dict : Type := list (string * string).

(** ** State *)

(** The client [client.chat.completions.create], seen from the program: a
    model name and the messages go in, a completion comes back or an
    exception is raised.  The outcome is decided outside the program, so a
    client is supplied with each request. *)
Definition Completions : Type :=
  string -> list Message -> Exception + openai.ChatCompletion.

(** The module-level list [conversation_history], and a trace of the calls
    made to the client: the model name and the messages as they were when
    the call was made.  The trace is not program data; it records what the
    code did with the outside world. *)
Record State : Type :=
  { conversation_history : list Message;
    create_calls : list (string * list Message) }.

(** ** Computations: state and exceptions *)

Definition M (E A : Type) : Type := State -> (E + A) * State.

Definition ret {E A : Type} (a : A) : M E A :=
  fun st => (inr a, st).

Definition raise {E A : Type} (e : E) : M E A :=
  fun st => (inl e, st).

Definition bind {E A B : Type} (c : M E A) (k : A -> M E B) : M E B :=
  fun st =>
    match c st with
    | (inl e, st') => (inl e, st')
    | (inr a, st') => k a st'
    end.

(** [try: body / except Exception as e: handler e]. *)
Definition try_except {E E' A : Type}
    (body : M E A) (handler : E -> M E' A) : M E' A :=
  fun st =>
    match body st with
    | (inl e, st') => handler e st'
    | (inr a, st') => (inr a, st')
    end.

(** An expression that raises or yields a value without touching the
    state. *)
Definition lift {E A : Type} (r : E + A) : M E A :=
  fun st => (r, st).

Declare Scope py_scope.
Delimit Scope py_scope with py.
Notation "x <- c ;; k" := (bind c (fun x => k))
  (at level 61, c at next level, right associativity) : py_scope.
Notation "c ;; k" := (bind c (fun _ => k))
  (at level 61, right associativity) : py_scope.
Local Open Scope py_scope.

(** [c] raises [e] when started in [st]. *)
Definition raises {E A : Type} (c : M E A) (st : State) (e : E) : Prop :=
  fst (c st) = inl e.

(** ** Primitives on the transcript and the client *)

(** [conversation_history.append(m)]. *)
Definition history_append {E : Type} (m : Message) : M E unit :=
  fun st =>
    (inr tt,
     {| conversation_history := conversation_history st ++ [m];
        create_calls := create_calls st |}).

(** [conversation_history.clear()]. *)
Definition history_clear {E : Type} : M E unit :=
  fun st =>
    (inr tt,
     {| conversation_history := [];
        create_calls := create_calls st |}).

(** Reading the global [conversation_history]. *)
Definition history_read {E : Type} : M E (list Message) :=
  fun st => (inr (conversation_history st), st).

(** [client.chat.completions.create(model=..., messages=...)]. *)
Definition completions_create (client : Completions)
    (model : string) (messages : list Message)
  : M Exception openai.ChatCompletion :=
  fun st =>
    (client model messages,
     {| conversation_history := conversation_history st;
        create_calls := create_calls st ++ [(model, messages)] |}).

(** [l[i]] for a list [l] and an index [i >= 0]. *)
Definition getitem {A : Type} (l : list A) (i : nat) : Exception + A :=
  match nth_error l i with
  | Some a => inr a
  | None => inl (IndexError "list index out of range")
  end.

(** The entry the transcript starts with, written out twice in
    [chat.py]: in the initial value of [conversation_history] and in
    [reset_conversation]. *)
Definition system_turn : Message :=
  {| role := "system";
     content := Some "You are PersonaGPT, a helpful and friendly AI assistant." |}.

Definition user_turn (text : string) : Message :=
  {| role := "user"; content := Some text |}.

Definition assistant_turn (reply : option string) : Message :=
  {| role := "assistant"; content := reply |}.

(** The state at service start. *)
Definition initial_state : State :=
  {| conversation_history := [system_turn];
     create_calls := [] |}.

(** The requests the service answers.  [GET /] and [GET /health] are the
    two routes of [main.py]; the other two are the router of [chat.py]. *)
Inductive Op : Type :=
| Send (client : Completions) (request : schemas.ChatRequest)
| Reset
| Root
| Health.

(** ** Stub clients

    The clients of the spec's test scenarios: one that answers every call
    with the same text, one whose every call fails, one whose completion
    has no choice, and one whose first choice has no content. *)

Definition replying_client (text : string) : Completions :=
  fun _ _ =>
    inr {| openai.choices :=
             [{| openai.message := {| openai.content := Some text |} |}] |}.

Definition failing_client (description : string) : Completions :=
  fun _ _ => inl (APIError description).

Definition choiceless_client : Completions :=
  fun _ _ => inr {| openai.choices := [] |}.

Definition contentless_client : Completions :=
  fun _ _ =>
    inr {| openai.choices :=
             [{| openai.message := {| openai.content := None |} |}] |}.

Section Relay.

(** [app/core/config.py] is not among the sources: the model name is a
    parameter.  So is the text of the validation error of
    [ChatResponse]. *)
Variable OPENAI_MODEL : string.
Variable validation_text : string.

(** ** [app/services/chatbot.py] *)

Definition get_chat_response (client : Completions)
    (messages : list Message) : M Exception (option string) :=
  response <- completions_create client OPENAI_MODEL messages ;;
  choice <- lift (getitem (openai.choices response) 0) ;;
  ret (openai.content (openai.message choice)).

(** ** [app/api/routes/chat.py] *)

Definition send_message (client : Completions)
    (request : schemas.ChatRequest) : M HTTPException schemas.ChatResponse :=
  try_except
    (history_append
       {| role := "user"; content := Some (schemas.message request) |} ;;
     messages <- history_read ;;
     reply <- get_chat_response client messages ;;
     history_append {| role := "assistant"; content := reply |} ;;
     lift (schemas.ChatResponse_init validation_text reply))
    (fun e => raise {| status_code := 500; detail := str e |}).

Definition reset_conversation : M HTTPException dict :=
  history_clear ;;
  history_append
    {| role := "system";
       content :=
         Some "You are PersonaGPT, a helpful and friendly AI assistant." |} ;;
  ret [("message", "Conversation reset")].

(** ** [app/main.py] *)

Definition root : M HTTPException FileResponse :=
  ret {| path := "static/index.html" |}.

Definition health : M HTTPException dict :=
  ret [("status", "healthy")].

(** ** The service as a transition system *)

(** The state after a request has been answered. *)
Definition step (op : Op) (st : State) : State :=
  match op with
  | Send client request => snd (send_message client request st)
  | Reset => snd (reset_conversation st)
  | Root => snd (root st)
  | Health => snd (health st)
  end.

Inductive reachable : State -> Prop :=
| reachable_start : reachable initial_state
| reachable_step (op : Op) (st : State) :
    reachable st -> reachable (step op st).

(** The state after a list of requests, answered oldest first. *)
Fixpoint run (ops : list Op) (st : State) : State :=
  match ops with
  | [] => st
  | op :: ops' => run ops' (step op st)
  end.

(** Every entry of [old] is still in [new], at the same index. *)
Definition kept (old new : list Message) : Prop :=
  forall (i : nat) (t : Message),
    nth_error old i = Some t -> nth_error new i = Some t.

(** [c] returns [a] when started in [st]. *)
Definition returns {E A : Type} (c : M E A) (st : State) (a : A) : Prop :=
  fst (c st) = inr a.

(** What one request to [send_message] leaves in the transcript: the user
    entry and, when [get_chat_response] returned, the assistant entry with
    what it returned. *)
Definition exchange (x : string * option (option string)) : list Message :=
  match x with
  | (text, None) => [user_turn text]
  | (text, Some reply) => [user_turn text; assistant_turn reply]
  end.

Definition is_send (op : Op) : bool :=
  match op with
  | Send _ _ => true
  | _ => false
  end.

(** How many of the requests are sends. *)
Definition count_sends (ops : list Op) : nat :=
  length (filter is_send ops).

(** A call to the client as the service makes it: the configured model,
    and messages that start with the preamble, go on with earlier
    exchanges and end with the user entry of the request at hand. *)
Definition call_in_order (call : string * list Message) : Prop :=
  fst call = OPENAI_MODEL /\
  exists (xs : list (string * option (option string))) (text : string),
    snd call = system_turn :: flat_map exchange xs ++ [user_turn text].

(** ** What the functions compute *)

Lemma get_chat_response_eq (client : Completions)
    (messages : list Message) (st : State) :
  get_chat_response client messages st =
  (match client OPENAI_MODEL messages with
   | inl e => inl e
   | inr response =>
       match openai.choices response with
       | [] => inl (IndexError "list index out of range")
       | choice :: _ => inr (openai.content (openai.message choice))
       end
   end,
   {| conversation_history := conversation_history st;
      create_calls := create_calls st ++ [(OPENAI_MODEL, messages)] |}).
Proof.
  unfold get_chat_response, bind, completions_create, lift, getitem, ret.
  destruct (client OPENAI_MODEL messages) as [e | response]; [reflexivity |].
  destruct (openai.choices response) as [| choice others]; reflexivity.
Qed.

(** [send_message] has four ways through it: the client raises, the
    completion has no choice, the first choice has no content, and the
    ordinary one. *)
Lemma send_message_eq (client : Completions)
    (request : schemas.ChatRequest) (st : State) :
  let messages :=
    conversation_history st ++ [user_turn (schemas.message request)] in
  let calls := create_calls st ++ [(OPENAI_MODEL, messages)] in
  send_message client request st =
  match client OPENAI_MODEL messages with
  | inl e =>
      (inl {| status_code := 500; detail := str e |},
       {| conversation_history := messages; create_calls := calls |})
  | inr response =>
      match openai.choices response with
      | [] =>
          (inl {| status_code := 500;
                  detail := "list index out of range" |},
           {| conversation_history := messages; create_calls := calls |})
      | choice :: _ =>
          match openai.content (openai.message choice) with
          | Some text =>
              (inr {| schemas.reply := text |},
               {| conversation_history :=
                    messages ++ [assistant_turn (Some text)];
                  create_calls := calls |})
          | None =>
              (inl {| status_code := 500; detail := validation_text |},
               {| conversation_history :=
                    messages ++ [assistant_turn None];
                  create_calls := calls |})
          end
      end
  end.
Proof.
  intros messages calls.
  unfold send_message, try_except.
  unfold bind at 1. unfold history_append at 1.
  unfold bind at 1. unfold history_read.
  unfold bind at 1. rewrite get_chat_response_eq.
  cbn [conversation_history create_calls].
  fold (user_turn (schemas.message request)). fold messages. fold calls.
  destruct (client OPENAI_MODEL messages) as [e | response]; [reflexivity |].
  destruct (openai.choices response) as [| choice others]; [reflexivity |].
  destruct (openai.content (openai.message choice)) as [text |];
    reflexivity.
Qed.

Lemma reset_conversation_eq (st : State) :
  reset_conversation st =
  (inr [("message", "Conversation reset")],
   {| conversation_history := [system_turn];
      create_calls := create_calls st |}).
Proof. reflexivity. Qed.

(** A request to [send_message] leaves the old transcript in place and
    puts one or two entries behind it, none of them a system entry. *)
Lemma send_message_appends (client : Completions)
    (request : schemas.ChatRequest) (st : State) :
  exists suffix : list Message,
    conversation_history (snd (send_message client request st)) =
      conversation_history st ++ suffix /\
    Forall (fun t => role t <> "system") suffix.
Proof.
  rewrite send_message_eq.
  destruct (client OPENAI_MODEL _) as [e | response].
  - eexists; split; [reflexivity |].
    repeat constructor; discriminate.
  - destruct (openai.choices response) as [| choice others].
    + eexists; split; [reflexivity |].
      repeat constructor; discriminate.
    + destruct (openai.content (openai.message choice)) as [text |];
        cbn [snd conversation_history]; rewrite <- app_assoc;
        (eexists; split; [reflexivity |]);
        repeat constructor; discriminate.
Qed.

Lemma kept_app (old suffix : list Message) : kept old (old ++ suffix).
Proof.
  intros i t H.
  rewrite nth_error_app1; [exact H |].
  apply nth_error_Some. rewrite H. discriminate.
Qed.

(** Answering requests one after the other, from the start or from any
    reachable state, stays within the reachable states. *)
Lemma reachable_run (ops : list Op) (st : State) :
  reachable st -> reachable (run ops st).
Proof.
  revert st.
  induction ops as [| op ops IH]; intros st Hreach; cbn [run].
  - exact Hreach.
  - apply IH. apply reachable_step. exact Hreach.
Qed.

(** The state [send_message] leaves, on each of its four ways: one more
    exchange in the transcript, one more call in the trace. *)
Lemma send_message_state (client : Completions)
    (request : schemas.ChatRequest) (st : State) :
  exists outcome : option (option string),
    snd (send_message client request st) =
    {| conversation_history :=
         conversation_history st ++
           exchange (schemas.message request, outcome);
       create_calls :=
         create_calls st ++
           [(OPENAI_MODEL,
             conversation_history st ++
               [user_turn (schemas.message request)])] |}.
Proof.
  rewrite send_message_eq.
  destruct (client OPENAI_MODEL _) as [e | response].
  - exists None. reflexivity.
  - destruct (openai.choices response) as [| choice others].
    + exists None. reflexivity.
    + destruct (openai.content (openai.message choice)) as [text |].
      * exists (Some (Some text)). cbn [snd exchange].
        rewrite <- app_assoc. reflexivity.
      * exists (Some None). cbn [snd exchange].
        rewrite <- app_assoc. reflexivity.
Qed.

Lemma exchange_length (x : string * option (option string)) :
  1 <= length (exchange x) <= 2.
Proof. destruct x as [text [reply |]]; cbn; lia. Qed.

(** The invariant behind the shape of the transcript and of the calls. *)
Lemma reachable_in_order (st : State) :
  reachable st ->
  (exists xs : list (string * option (option string)),
      conversation_history st = system_turn :: flat_map exchange xs) /\
  Forall call_in_order (create_calls st).
Proof.
  induction 1 as [| op st Hreach [[xs Hhistory] Hcalls]].
  - split; [exists []; reflexivity | constructor].
  - destruct op as [client request | | |]; cbn [step].
    + destruct (send_message_state client request st) as [outcome ->].
      cbn [conversation_history create_calls]. split.
      * exists (xs ++ [(schemas.message request, outcome)]).
        rewrite Hhistory, flat_map_app. cbn [flat_map].
        rewrite app_nil_r. reflexivity.
      * apply Forall_app. split; [exact Hcalls |].
        constructor; [| constructor].
        split; [reflexivity |].
        exists xs, (schemas.message request).
        cbn [snd]. rewrite Hhistory. reflexivity.
    + split; [exists []; reflexivity | exact Hcalls].
    + split; [exists xs; exact Hhistory | exact Hcalls].
    + split; [exists xs; exact Hhistory | exact Hcalls].
Qed.

(** ** The claims *)

(** C1.  Whatever the transcript and the message: when the client
    answers with a completion whose first choice has the text [r],
    [send_message] puts the user entry and then the assistant entry with
    [r] behind everything the transcript held, in that order, and returns
    [r]; the client was called once, with the transcript that ends in the
    user entry. *)
Theorem send_message_success (client : Completions)
    (request : schemas.ChatRequest) (st : State)
    (response : openai.ChatCompletion) (choice : openai.Choice)
    (others : list openai.Choice) (r : string) :
  client OPENAI_MODEL
    (conversation_history st ++ [user_turn (schemas.message request)])
    = inr response ->
  openai.choices response = choice :: others ->
  openai.content (openai.message choice) = Some r ->
  send_message client request st =
  (inr {| schemas.reply := r |},
   {| conversation_history :=
        conversation_history st ++
          [user_turn (schemas.message request); assistant_turn (Some r)];
      create_calls :=
        create_calls st ++
          [(OPENAI_MODEL,
            conversation_history st ++
              [user_turn (schemas.message request)])] |}).
Proof.
  intros Hclient Hchoices Hcontent.
  rewrite send_message_eq, Hclient, Hchoices, Hcontent.
  rewrite <- app_assoc. reflexivity.
Qed.

(** C2.  Whatever the transcript and the message: when the call of
    [get_chat_response] raises [e], [send_message] raises the HTTP
    exception with status 500 and detail [str e]; the client was called
    once and not again; the transcript is the old one with the user entry
    behind it and no assistant entry. *)
Theorem send_message_provider_failure (client : Completions)
    (request : schemas.ChatRequest) (st : State) (e : Exception) :
  let st1 :=
    {| conversation_history :=
         conversation_history st ++ [user_turn (schemas.message request)];
       create_calls := create_calls st |} in
  raises (get_chat_response client (conversation_history st1)) st1 e ->
  send_message client request st =
  (inl {| status_code := 500; detail := str e |},
   {| conversation_history :=
        conversation_history st ++ [user_turn (schemas.message request)];
      create_calls :=
        create_calls st ++
          [(OPENAI_MODEL,
            conversation_history st ++
              [user_turn (schemas.message request)])] |}).
Proof.
  intros st1 Hraises. unfold raises in Hraises.
  rewrite get_chat_response_eq in Hraises.
  cbn [fst conversation_history] in Hraises.
  rewrite send_message_eq.
  destruct (client OPENAI_MODEL _) as [e' | response].
  - injection Hraises as ->. reflexivity.
  - destruct (openai.choices response) as [| choice others].
    + injection Hraises as <-. reflexivity.
    + discriminate Hraises.
Qed.

(** C3.  At service start, and after [reset_conversation] from any
    state, the transcript has exactly one entry and its role is
    system. *)
Theorem single_system_turn_at_start_and_after_reset :
  (exists t : Message,
      conversation_history initial_state = [t] /\ role t = "system") /\
  (forall st : State,
      exists t : Message,
        conversation_history (snd (reset_conversation st)) = [t] /\
        role t = "system").
Proof.
  split; [| intros st]; exists system_turn; split; reflexivity.
Qed.

(** C4.  From any state, so from every reachable one, a second reset
    changes nothing a first one left, and what a reset leaves is the
    transcript with the system entry alone. *)
Theorem reset_conversation_idempotent (st : State) :
  step Reset (step Reset st) = step Reset st /\
  conversation_history (step Reset st) = [system_turn] /\
  conversation_history (step Reset (step Reset st)) = [system_turn].
Proof. repeat split. Qed.

(** C5.  A request other than a reset leaves every entry of the
    transcript as it was and where it was: the old transcript is a prefix
    of the new one. *)
Theorem only_reset_removes (op : Op) (st : State) :
  op <> Reset ->
  (exists suffix : list Message,
      conversation_history (step op st) =
        conversation_history st ++ suffix) /\
  kept (conversation_history st) (conversation_history (step op st)).
Proof.
  intros Hop.
  assert (exists suffix : list Message,
             conversation_history (step op st) =
               conversation_history st ++ suffix) as [suffix Hsuffix].
  { destruct op as [client request | | |].
    - destruct (send_message_appends client request st)
        as [suffix [Heq _]].
      exists suffix. exact Heq.
    - contradiction Hop. reflexivity.
    - exists []. cbn. now rewrite app_nil_r.
    - exists []. cbn. now rewrite app_nil_r. }
  split.
  - exists suffix. exact Hsuffix.
  - rewrite Hsuffix. apply kept_app.
Qed.

(** C6.  [reset_conversation] returns from every state, and what it
    returns is the body [{"message": "Conversation reset"}]. *)
Theorem reset_conversation_succeeds (st : State) :
  fst (reset_conversation st) = inr [("message", "Conversation reset")].
Proof. reflexivity. Qed.

(** C7.  Whatever the text of the message, the empty one included,
    [send_message] puts it into the transcript as it is and calls the
    client with the transcript that ends in it: nothing rejects the
    message on the way there. *)
Theorem send_message_no_validation (client : Completions)
    (request : schemas.ChatRequest) (st : State) :
  (exists suffix : list Message,
      conversation_history (snd (send_message client request st)) =
        conversation_history st ++
          {| role := "user"; content := Some (schemas.message request) |}
          :: suffix) /\
  create_calls (snd (send_message client request st)) =
    create_calls st ++
      [(OPENAI_MODEL,
        conversation_history st ++
          [{| role := "user";
              content := Some (schemas.message request) |}])].
Proof.
  rewrite send_message_eq. fold (user_turn (schemas.message request)).
  destruct (client OPENAI_MODEL _) as [e | response].
  - split; [exists []; reflexivity | reflexivity].
  - destruct (openai.choices response) as [| choice others].
    + split; [exists []; reflexivity | reflexivity].
    + destruct (openai.content (openai.message choice)) as [text |];
        (split; [| reflexivity]); cbn [snd conversation_history];
        rewrite <- app_assoc; eexists; reflexivity.
Qed.

(** C8.  In every state the service can reach from its start, through
    requests that succeed or fail, the transcript is not empty, its first
    entry is the system entry with the preamble, and no entry after it
    has the system role. *)
Theorem reachable_well_formed (st : State) :
  reachable st ->
  exists rest : list Message,
    conversation_history st =
      {| role := "system";
         content :=
           Some "You are PersonaGPT, a helpful and friendly AI assistant." |}
      :: rest /\
    Forall (fun t => role t <> "system") rest.
Proof.
  induction 1 as [| op st Hreach [rest [Hhistory Hrest]]].
  - exists []. split; [reflexivity | constructor].
  - destruct op as [client request | | |].
    + destruct (send_message_appends client request st)
        as [suffix [Heq Hsuffix]].
      exists (rest ++ suffix). cbn [step]. rewrite Heq, Hhistory.
      split; [reflexivity |].
      apply Forall_app. split; assumption.
    + exists []. split; [reflexivity | constructor].
    + exists rest. split; assumption.
    + exists rest. split; assumption.
Qed.

(** C9.  [get_chat_response] takes the first choice of the completion
    without looking whether there is one.  When there is, it returns the
    content of that choice's message.  When the list of choices is empty,
    the access raises the index error, and [send_message], whose call it
    was, raises the same HTTP exception with status 500 as for any other
    failure. *)
Theorem get_chat_response_first_choice (client : Completions)
    (messages : list Message) (response : openai.ChatCompletion)
    (st : State) :
  client OPENAI_MODEL messages = inr response ->
  match openai.choices response with
  | choice :: _ =>
      fst (get_chat_response client messages st) =
        inr (openai.content (openai.message choice))
  | [] =>
      fst (get_chat_response client messages st) =
        inl (IndexError "list index out of range") /\
      (forall (request : schemas.ChatRequest) (st0 : State),
          messages =
            conversation_history st0 ++
              [user_turn (schemas.message request)] ->
          fst (send_message client request st0) =
            inl {| status_code := 500;
                   detail := str (IndexError "list index out of range") |})
  end.
Proof.
  intros Hclient.
  rewrite get_chat_response_eq, Hclient.
  destruct (openai.choices response) as [| choice others] eqn:Hchoices;
    [| reflexivity].
  split; [reflexivity |].
  intros request st0 ->.
  rewrite send_message_eq, Hclient, Hchoices. reflexivity.
Qed.

(** C10.  [health] returns the body [{"status": "healthy"}] and leaves
    the state as it found it; a request after which the transcript
    differs from the one before is a send or a reset. *)
Theorem health_leaves_history (op : Op) (st : State) :
  health st = (inr [("status", "healthy")], st) /\
  (conversation_history (step op st) <> conversation_history st ->
   op = Reset \/
   exists (client : Completions) (request : schemas.ChatRequest),
     op = Send client request).
Proof.
  split; [reflexivity |].
  intros Hchanged.
  destruct op as [client request | | |].
  - right. exists client, request. reflexivity.
  - left. reflexivity.
  - contradiction Hchanged. reflexivity.
  - contradiction Hchanged. reflexivity.
Qed.

(** ** Further properties of the relay *)

(** X1.  In every reachable state the transcript is the preamble followed
    by exchanges: each one a user entry with the text of a request and,
    directly behind it, at most one assistant entry.  So an assistant
    entry never follows the preamble or another assistant entry, and the
    content of a user entry is never [None]. *)
Theorem transcript_is_exchanges (st : State) :
  reachable st ->
  exists xs : list (string * option (option string)),
    conversation_history st = system_turn :: flat_map exchange xs.
Proof.
  intros Hreach. apply (reachable_in_order st Hreach).
Qed.

(** X2.  A send calls the client once on each of its ways, also when the
    completion is without choices or without content; no other request
    calls it.  After any list of requests the trace has grown by the number
    of sends among them. *)
Theorem one_call_per_send (ops : list Op) (st : State) :
  length (create_calls (run ops st)) =
    length (create_calls st) + count_sends ops.
Proof.
  revert st. unfold count_sends.
  induction ops as [| op ops IH]; intros st; cbn [run filter].
  - cbn. lia.
  - rewrite IH.
    destruct op as [client request | | |]; cbn [step is_send length].
    + destruct (send_message_state client request st) as [outcome ->].
      cbn [create_calls]. rewrite length_app. cbn. lia.
    + cbn. lia.
    + cbn. lia.
    + cbn. lia.
Qed.


(** X4.  A reply that [send_message] has returned is in the transcript:
    the transcript then ends with the user entry of the request and the
    assistant entry with that reply. *)
Theorem reply_is_recorded (client : Completions)
    (request : schemas.ChatRequest) (st : State)
    (response : schemas.ChatResponse) :
  returns (send_message client request) st response ->
  conversation_history (snd (send_message client request st)) =
    conversation_history st ++
      [user_turn (schemas.message request);
       assistant_turn (Some (schemas.reply response))].
Proof.
  unfold returns. rewrite send_message_eq.
  destruct (client OPENAI_MODEL _) as [e | completion];
    [discriminate |].
  destruct (openai.choices completion) as [| choice others];
    [discriminate |].
  destruct (openai.content (openai.message choice)) as [text |];
    [| discriminate].
  cbn [fst snd conversation_history].
  intros [= <-]. rewrite <- app_assoc. reflexivity.
Qed.


(** X6.  After a reset the client is told nothing of what was said
    before: the call of the next send carries the preamble and the new
    user entry and nothing else, whatever the state the reset started
    from. *)
Theorem send_after_reset_context (client : Completions)
    (request : schemas.ChatRequest) (st : State) :
  create_calls (step (Send client request) (step Reset st)) =
    create_calls st ++
      [(OPENAI_MODEL, [system_turn; user_turn (schemas.message request)])].
Proof.
  cbn [step].
  destruct (send_message_state client request (snd (reset_conversation st)))
    as [outcome ->].
  reflexivity.
Qed.

(** X7.  The user entry of a send whose call failed stays: the next send
    passes it on to the client, directly before its own user entry, and the
    transcript holds the two user entries one behind the other. *)
Theorem failed_send_stays_in_context (client1 client2 : Completions)
    (request1 request2 : schemas.ChatRequest) (st : State) (e : Exception) :
  let st1 :=
    {| conversation_history :=
         conversation_history st ++ [user_turn (schemas.message request1)];
       create_calls := create_calls st |} in
  raises (get_chat_response client1 (conversation_history st1)) st1 e ->
  let st2 := step (Send client2 request2) (step (Send client1 request1) st) in
  create_calls st2 =
    create_calls st ++
      [(OPENAI_MODEL,
        conversation_history st ++ [user_turn (schemas.message request1)]);
       (OPENAI_MODEL,
        conversation_history st ++
          [user_turn (schemas.message request1);
           user_turn (schemas.message request2)])] /\
  exists outcome : option (option string),
    conversation_history st2 =
      conversation_history st ++
        user_turn (schemas.message request1)
        :: exchange (schemas.message request2, outcome).
Proof.
  intros st1 Hraises st2. subst st2. unfold raises in Hraises.
  rewrite get_chat_response_eq in Hraises. cbn [fst] in Hraises.
  assert (step (Send client1 request1) st =
          {| conversation_history := conversation_history st1;
             create_calls :=
               create_calls st ++
                 [(OPENAI_MODEL, conversation_history st1)] |}) as ->.
  { cbn [step]. rewrite send_message_eq.
    subst st1. cbn [conversation_history] in *.
    destruct (client1 OPENAI_MODEL _) as [e' | completion];
      [reflexivity |].
    destruct (openai.choices completion) as [| choice others];
      [reflexivity | discriminate Hraises]. }
  cbn [step].
  match goal with
  | |- context [send_message client2 request2 ?s] =>
      destruct (send_message_state client2 request2 s) as [outcome ->]
  end.
  subst st1. cbn [conversation_history create_calls]. split.
  - rewrite <- !app_assoc. reflexivity.
  - exists outcome. rewrite <- app_assoc. reflexivity.
Qed.

(** X8.  Nothing but a reset shortens the transcript, and a send always
    lengthens it: after [n] sends in a row it is longer by at least [n]
    and at most [2 * n] entries. *)
Theorem sends_grow_transcript (ops : list Op) (st : State) :
  forallb is_send ops = true ->
  length (conversation_history st) + length ops
    <= length (conversation_history (run ops st))
    <= length (conversation_history st) + 2 * length ops.
Proof.
  revert st.
  induction ops as [| op ops IH]; intros st Hsends; cbn [run length].
  - lia.
  - cbn [forallb] in Hsends. apply andb_prop in Hsends as [Hop Hsends].
    specialize (IH (step op st) Hsends).
    destruct op as [client request | | |]; try discriminate Hop.
    cbn [step] in IH |- *.
    destruct (send_message_state client request st) as [outcome Hstate].
    rewrite Hstate in IH |- *. cbn [conversation_history] in IH.
    rewrite length_app in IH.
    pose proof (exchange_length (schemas.message request, outcome)).
    lia.
Qed.

(** X9.  From a state whose transcript is not empty, any list of requests,
    resets among them or not, leaves a transcript of at most two more
    entries for each send. *)
Theorem transcript_bounded_by_sends (ops : list Op) (st : State) :
  1 <= length (conversation_history st) ->
  1 <= length (conversation_history (run ops st))
    <= length (conversation_history st) + 2 * count_sends ops.
Proof.
  revert st. unfold count_sends.
  induction ops as [| op ops IH]; intros st Hst; cbn [run filter].
  - cbn. lia.
  - destruct op as [client request | | |]; cbn [step is_send length].
    + destruct (send_message_state client request st) as [outcome Hstate].
      rewrite Hstate.
      pose proof (exchange_length (schemas.message request, outcome)).
      match goal with
      | |- context [run ops ?s] => specialize (IH s)
      end.
      cbn [conversation_history] in IH. rewrite length_app in IH.
      lia.
    + specialize (IH (snd (reset_conversation st))).
      rewrite reset_conversation_eq in IH |- *.
      cbn [snd conversation_history length] in IH |- *. lia.
    + apply IH. exact Hst.
    + apply IH. exact Hst.
Qed.

(** X10.  The assistant entry is appended before the response is built:
    whatever [get_chat_response] returns, a text or [None], the transcript
    after the send is the old one with the user entry and the assistant
    entry holding just that. *)
Theorem assistant_entry_precedes_response (client : Completions)
    (request : schemas.ChatRequest) (st : State) (reply : option string) :
  let st1 :=
    {| conversation_history :=
         conversation_history st ++ [user_turn (schemas.message request)];
       create_calls := create_calls st |} in
  returns (get_chat_response client (conversation_history st1)) st1 reply ->
  conversation_history (snd (send_message client request st)) =
    conversation_history st ++
      [user_turn (schemas.message request); assistant_turn reply].
Proof.
  intros st1 Hreturns. unfold returns in Hreturns.
  rewrite get_chat_response_eq in Hreturns.
  cbn [fst conversation_history] in Hreturns.
  rewrite send_message_eq.
  destruct (client OPENAI_MODEL _) as [e | completion];
    [discriminate Hreturns |].
  destruct (openai.choices completion) as [| choice others];
    [discriminate Hreturns |].
  injection Hreturns as <-.
  destruct (openai.content (openai.message choice)) as [text |];
    cbn [snd conversation_history]; rewrite <- app_assoc; reflexivity.
Qed.

(** X11.  Every user entry of the transcript of a reachable state has been
    passed to the client, in a call whose messages were the transcript up
    to and including that entry. *)
Theorem user_entries_were_sent (st : State) :
  reachable st ->
  forall (before after : list Message) (text : string),
    conversation_history st = before ++ user_turn text :: after ->
    In (OPENAI_MODEL, before ++ [user_turn text]) (create_calls st).
Proof.
  induction 1 as [| op st Hreach IH]; intros before after text Hsplit.
  - destruct before as [| t [| t' before]]; discriminate Hsplit.
  - destruct op as [client request | | |]; cbn [step] in Hsplit |- *.
    + destruct (send_message_state client request st) as [outcome Hstate].
      rewrite Hstate in Hsplit |- *.
      cbn [conversation_history create_calls] in Hsplit |- *.
      apply in_or_app.
      apply app_eq_app in Hsplit as [mid [[Hold Hnew] | [Hbefore Hnew]]].
      * destruct mid as [| t mid].
        -- right. left. rewrite app_nil_r in Hold. cbn [app] in Hnew.
           destruct outcome as [reply |]; cbn [exchange] in Hnew;
             injection Hnew as Htext _; rewrite Hold, <- Htext;
             reflexivity.
        -- left. cbn [app] in Hnew. injection Hnew as <- _.
           apply (IH before (mid)). exact Hold.
      * right. left. 
        destruct mid as [| t mid].
        -- rewrite app_nil_r in Hbefore. cbn [app] in Hnew.
           destruct outcome as [reply |]; cbn [exchange] in Hnew;
             injection Hnew as <-; rewrite Hbefore; reflexivity.
        -- destruct outcome as [reply |]; cbn [exchange app] in Hnew.
           ++ injection Hnew as _ Hrest.
              destruct mid as [| t' mid]; [| destruct mid; discriminate Hrest].
              discriminate Hrest.
           ++ injection Hnew as _ Hrest. destruct mid; discriminate Hrest.
    + rewrite reset_conversation_eq in Hsplit.
      cbn [snd conversation_history] in Hsplit.
      destruct before as [| t [| t' before]]; discriminate Hsplit.
    + apply (IH before after). exact Hsplit.
    + apply (IH before after). exact Hsplit.
Qed.

End Relay.

(** ** The scenarios of the spec, run

    The model name and the validation text are fixed here; no function
    looks into either. *)

Example scenario_hello :
  let st1 :=
    step "gpt-4o-mini" "validation error"
      (Send (replying_client "Hi there!") {| schemas.message := "Hello" |})
      initial_state in
  fst (send_message "gpt-4o-mini" "validation error"
         (replying_client "Hi there!") {| schemas.message := "Hello" |}
         initial_state) = inr {| schemas.reply := "Hi there!" |} /\
  conversation_history st1 =
    [system_turn; user_turn "Hello"; assistant_turn (Some "Hi there!")] /\
  conversation_history (step "gpt-4o-mini" "validation error" Reset st1) =
    [system_turn].
Proof. repeat split. Qed.

Example scenario_failure :
  send_message "gpt-4o-mini" "validation error"
    (failing_client "Connection error.") {| schemas.message := "hi" |}
    initial_state =
  (inl {| status_code := 500; detail := "Connection error." |},
   {| conversation_history := [system_turn; user_turn "hi"];
      create_calls := [("gpt-4o-mini", [system_turn; user_turn "hi"])] |}).
Proof. reflexivity. Qed.

Example scenario_empty_message :
  send_message "gpt-4o-mini" "validation error"
    (replying_client "pong") {| schemas.message := "" |} initial_state =
  (inr {| schemas.reply := "pong" |},
   {| conversation_history :=
        [system_turn; user_turn ""; assistant_turn (Some "pong")];
      create_calls := [("gpt-4o-mini", [system_turn; user_turn ""])] |}).
Proof. reflexivity. Qed.

(** A completion whose first choice has no content is not a failure of the
    client: [get_chat_response] returns [None], the assistant entry is
    appended with it, and only then the response model refuses it. *)
Example scenario_no_content :
  send_message "gpt-4o-mini" "validation error"
    contentless_client {| schemas.message := "hi" |} initial_state =
  (inl {| status_code := 500; detail := "validation error" |},
   {| conversation_history :=
        [system_turn; user_turn "hi"; assistant_turn None];
      create_calls := [("gpt-4o-mini", [system_turn; user_turn "hi"])] |}).
Proof. reflexivity. Qed.

(** ** The theorems with hypotheses, at concrete inputs *)

Lemma send_message_success_witness :
  send_message "gpt-4o-mini" "validation error"
    (replying_client "pong") {| schemas.message := "ping" |} initial_state =
  (inr {| schemas.reply := "pong" |},
   {| conversation_history :=
        [system_turn; user_turn "ping"; assistant_turn (Some "pong")];
      create_calls := [("gpt-4o-mini", [system_turn; user_turn "ping"])] |}).
Proof.
  exact (send_message_success "gpt-4o-mini" "validation error"
           (replying_client "pong") {| schemas.message := "ping" |}
           initial_state
           {| openai.choices :=
                [{| openai.message :=
                      {| openai.content := Some "pong" |} |}] |}
           {| openai.message := {| openai.content := Some "pong" |} |}
           [] "pong" eq_refl eq_refl eq_refl).
Defined.

Lemma send_message_provider_failure_witness :
  raises
    (get_chat_response "gpt-4o-mini" (failing_client "Connection error.")
       [system_turn; user_turn "hi"])
    {| conversation_history := [system_turn; user_turn "hi"];
       create_calls := [] |}
    (APIError "Connection error.") /\
  send_message "gpt-4o-mini" "validation error"
    (failing_client "Connection error.") {| schemas.message := "hi" |}
    initial_state =
  (inl {| status_code := 500; detail := "Connection error." |},
   {| conversation_history := [system_turn; user_turn "hi"];
      create_calls := [("gpt-4o-mini", [system_turn; user_turn "hi"])] |}).
Proof.
  split; [reflexivity |].
  apply (send_message_provider_failure "gpt-4o-mini" "validation error"
           (failing_client "Connection error.") {| schemas.message := "hi" |}
           initial_state (APIError "Connection error.")).
  reflexivity.
Defined.

Lemma only_reset_removes_witness :
  Send (replying_client "pong") {| schemas.message := "ping" |} <> Reset /\
  (exists suffix : list Message,
      conversation_history
        (step "gpt-4o-mini" "validation error"
           (Send (replying_client "pong") {| schemas.message := "ping" |})
           initial_state) =
        conversation_history initial_state ++ suffix) /\
  kept (conversation_history initial_state)
    (conversation_history
       (step "gpt-4o-mini" "validation error"
          (Send (replying_client "pong") {| schemas.message := "ping" |})
          initial_state)).
Proof.
  split; [discriminate |].
  apply (only_reset_removes "gpt-4o-mini" "validation error"
           (Send (replying_client "pong") {| schemas.message := "ping" |})
           initial_state).
  discriminate.
Defined.

Lemma reachable_well_formed_witness :
  exists rest : list Message,
    conversation_history
      (step "gpt-4o-mini" "validation error"
         (Send (failing_client "Connection error.")
            {| schemas.message := "hi" |})
         initial_state) =
      {| role := "system";
         content :=
           Some "You are PersonaGPT, a helpful and friendly AI assistant." |}
      :: rest /\
    Forall (fun t => role t <> "system") rest.
Proof.
  apply (reachable_well_formed "gpt-4o-mini" "validation error").
  apply reachable_step. apply reachable_start.
Defined.

Lemma get_chat_response_first_choice_witness :
  fst (get_chat_response "gpt-4o-mini" (replying_client "pong")
         [system_turn; user_turn "ping"] initial_state) = inr (Some "pong") /\
  fst (get_chat_response "gpt-4o-mini" choiceless_client
         [system_turn; user_turn "ping"] initial_state) =
    inl (IndexError "list index out of range") /\
  fst (send_message "gpt-4o-mini" "validation error" choiceless_client
         {| schemas.message := "ping" |} initial_state) =
    inl {| status_code := 500; detail := "list index out of range" |}.
Proof.
  split.
  - exact (get_chat_response_first_choice "gpt-4o-mini" "validation error"
             (replying_client "pong") [system_turn; user_turn "ping"]
             {| openai.choices :=
                  [{| openai.message :=
                        {| openai.content := Some "pong" |} |}] |}
             initial_state eq_refl).
  - pose proof
      (get_chat_response_first_choice "gpt-4o-mini" "validation error"
         choiceless_client [system_turn; user_turn "ping"]
         {| openai.choices := [] |} initial_state eq_refl) as [Hget Hsend].
    split; [exact Hget |].
    exact (Hsend {| schemas.message := "ping" |} initial_state eq_refl).
Defined.

Lemma health_leaves_history_witness :
  conversation_history
    (step "gpt-4o-mini" "validation error" Reset
       {| conversation_history := [system_turn; user_turn "hi"];
          create_calls := [] |})
    <> [system_turn; user_turn "hi"] /\
  health {| conversation_history := [system_turn; user_turn "hi"];
            create_calls := [] |} =
    (inr [("status", "healthy")],
     {| conversation_history := [system_turn; user_turn "hi"];
        create_calls := [] |}) /\
  (Reset = Reset \/
   exists (client : Completions) (request : schemas.ChatRequest),
     Reset = Send client request).
Proof.
  split; [discriminate |].
  destruct (health_leaves_history "gpt-4o-mini" "validation error" Reset
              {| conversation_history := [system_turn; user_turn "hi"];
                 create_calls := [] |}) as [Hhealth Honly].
  split; [exact Hhealth |].
  apply Honly. discriminate.
Defined.

(** ** The further properties with hypotheses, at concrete inputs *)

Lemma transcript_is_exchanges_witness :
  exists xs : list (string * option (option string)),
    conversation_history
      (run "gpt-4o-mini" "validation error"
         [Send (failing_client "Connection error.")
            {| schemas.message := "hi" |};
          Send (replying_client "pong") {| schemas.message := "ping" |}]
         initial_state) =
    system_turn :: flat_map exchange xs.
Proof.
  apply (transcript_is_exchanges "gpt-4o-mini" "validation error").
  apply reachable_run. apply reachable_start.
Defined.


Lemma reply_is_recorded_witness :
  returns
    (send_message "gpt-4o-mini" "validation error"
       (replying_client "pong") {| schemas.message := "ping" |})
    initial_state {| schemas.reply := "pong" |} /\
  conversation_history
    (snd (send_message "gpt-4o-mini" "validation error"
            (replying_client "pong") {| schemas.message := "ping" |}
            initial_state)) =
    conversation_history initial_state ++
      [user_turn "ping"; assistant_turn (Some "pong")].
Proof.
  split; [reflexivity |].
  apply (reply_is_recorded "gpt-4o-mini" "validation error"
           (replying_client "pong") {| schemas.message := "ping" |}
           initial_state {| schemas.reply := "pong" |}).
  reflexivity.
Defined.


Lemma failed_send_stays_in_context_witness :
  raises
    (get_chat_response "gpt-4o-mini" (failing_client "Connection error.")
       [system_turn; user_turn "hi"])
    {| conversation_history := [system_turn; user_turn "hi"];
       create_calls := [] |}
    (APIError "Connection error.") /\
  create_calls
    (step "gpt-4o-mini" "validation error"
       (Send (replying_client "pong") {| schemas.message := "hi" |})
       (step "gpt-4o-mini" "validation error"
          (Send (failing_client "Connection error.")
             {| schemas.message := "hi" |})
          initial_state)) =
    [("gpt-4o-mini", [system_turn; user_turn "hi"]);
     ("gpt-4o-mini", [system_turn; user_turn "hi"; user_turn "hi"])].
Proof.
  split; [reflexivity |].
  apply (failed_send_stays_in_context "gpt-4o-mini" "validation error"
           (failing_client "Connection error.") (replying_client "pong")
           {| schemas.message := "hi" |} {| schemas.message := "hi" |}
           initial_state (APIError "Connection error.")).
  reflexivity.
Defined.

Lemma sends_grow_transcript_witness :
  1 + 2
    <= length
         (conversation_history
            (run "gpt-4o-mini" "validation error"
               [Send (failing_client "Connection error.")
                  {| schemas.message := "hi" |};
                Send (replying_client "pong")
                  {| schemas.message := "ping" |}]
               initial_state))
    <= 1 + 2 * 2.
Proof.
  apply (sends_grow_transcript "gpt-4o-mini" "validation error"
           [Send (failing_client "Connection error.")
              {| schemas.message := "hi" |};
            Send (replying_client "pong") {| schemas.message := "ping" |}]
           initial_state).
  reflexivity.
Defined.

Lemma transcript_bounded_by_sends_witness :
  1 <= length
         (conversation_history
            (run "gpt-4o-mini" "validation error"
               [Send (replying_client "pong")
                  {| schemas.message := "ping" |};
                Reset;
                Health;
                Send contentless_client {| schemas.message := "hi" |}]
               initial_state))
    <= 1 + 2 * 2.
Proof.
  apply (transcript_bounded_by_sends "gpt-4o-mini" "validation error"
           [Send (replying_client "pong") {| schemas.message := "ping" |};
            Reset;
            Health;
            Send contentless_client {| schemas.message := "hi" |}]
           initial_state).
  simpl. lia.
Defined.

Lemma assistant_entry_precedes_response_witness :
  returns
    (get_chat_response "gpt-4o-mini" contentless_client
       [system_turn; user_turn "hi"])
    {| conversation_history := [system_turn; user_turn "hi"];
       create_calls := [] |}
    None /\
  conversation_history
    (snd (send_message "gpt-4o-mini" "validation error" contentless_client
            {| schemas.message := "hi" |} initial_state)) =
    [system_turn; user_turn "hi"; assistant_turn None].
Proof.
  split; [reflexivity |].
  apply (assistant_entry_precedes_response "gpt-4o-mini" "validation error"
           contentless_client {| schemas.message := "hi" |} initial_state
           None).
  reflexivity.
Defined.

Lemma user_entries_were_sent_witness :
  In ("gpt-4o-mini", [system_turn; user_turn "hi"])
    (create_calls
       (run "gpt-4o-mini" "validation error"
          [Send (failing_client "Connection error.")
             {| schemas.message := "hi" |};
           Send (replying_client "pong") {| schemas.message := "ping" |}]
          initial_state)).
Proof.
  apply (user_entries_were_sent "gpt-4o-mini" "validation error"
           (run "gpt-4o-mini" "validation error"
              [Send (failing_client "Connection error.")
                 {| schemas.message := "hi" |};
               Send (replying_client "pong")
                 {| schemas.message := "ping" |}]
              initial_state)
           (reachable_run "gpt-4o-mini" "validation error" _ _
              (reachable_start "gpt-4o-mini" "validation error"))
           [system_turn] [user_turn "ping"; assistant_turn (Some "pong")]
           "hi").
  reflexivity.
Defined.
